(** * Gateway WebSocket server (src/core/gateway_server.py)

    A shallow embedding of [GatewayWebSocketServer]: the authentication gate
    of [_handle_connection], the per-frame handling of [_handle_message],
    [_parse_payload], [_send_error] and [_call_openai].

    Python values produced by [json.loads] are modelled by the inductive
    [json]; a Python dict is an association list whose [get] returns the
    last binding (which is how [json.loads] resolves duplicate keys) and
    [None] (JSON null) when the key is absent.  Outbound frames are recorded
    as the dict handed to [json.dumps].  The websocket is modelled by a
    trace of observable events. *)

From Stdlib Require Import String Ascii List Bool ZArith Lia.
Set Warnings "-register-all".
Import ListNotations.
Open Scope string_scope.

(** ** Python/JSON values *)

Inductive json : Type :=
| JNull                                (* None / null *)
| JBool (b : bool)
| JInt (z : Z)                         (* JSON numbers (integral part) *)
| JStr (s : string)
| JArr (l : list json)
| JObj (kv : list (string * json)).

(** Python truthiness of a decoded JSON value ([bool(x)]). *)
Definition truthy (v : json) : bool :=
  match v with
  | JNull => false
  | JBool b => b
  | JInt z => negb (Z.eqb z 0)
  | JStr s => negb (String.eqb s "")
  | JArr l => match l with [] => false | _ => true end
  | JObj kv => match kv with [] => false | _ => true end
  end.

(** Python [a or b]: [a] when truthy, [b] otherwise. *)
Definition py_or (a b : json) : json := if truthy a then a else b.

(** [d.get(k)] on a dict decoded from JSON: the last binding of [k], or
    [None]. *)
Definition py_get (kv : list (string * json)) (k : string) : json :=
  match find (fun p => String.eqb (fst p) k) (rev kv) with
  | Some (_, v) => v
  | None => JNull
  end.

(** ** Frames and observable events *)

(** A frame delivered by [async for message in websocket]: [bytes] for a
    binary frame, [str] for a text frame. *)
Inductive frame : Type :=
| FBytes (b : list Byte.byte)
| FText (s : string).

Inductive event : Type :=
| EvSend (payload : json)      (* websocket.send(json.dumps(payload)) *)
| EvClose                      (* websocket.close() *)
| EvBackend (messages : json)  (* asyncio.to_thread(self._call_openai, messages) *)
| EvHandlerError.              (* an exception escaping the handler *)

(** ** The upstream chat-completion response ([openai] client objects) *)

Record chat_message : Type := { content : option string }.
Record completion_choice : Type := { message : option chat_message }.
Record completion : Type := { choices : list completion_choice }.

(** [self.client.chat.completions.create(...)]: a response, or an exception
    whose [str] is the detail string. *)
Inductive create_outcome : Type :=
| CreateOk (r : completion)
| CreateErr (detail : string).

(** ** Message strings of the source *)

Definition msg_missing_device_id : string := "缺少device-id，拒绝连接。".
Definition msg_unauthorized : string := "device-id未授权。".
Definition msg_only_text : string := "仅支持文本消息。".
Definition msg_bad_format : string := "消息格式不合法。".
Definition msg_missing_fields : string := "缺少messages或text字段。".
Definition msg_openai_failed_prefix : string := "OpenAI请求失败: ".

(** ** Handshake headers ([websockets.datastructures.Headers])

    [Headers] stores every header under [key.lower()] in an internal dict
    of value lists; iterating it yields the lower-cased keys, and
    [headers[key]] returns the single value or raises
    [MultipleValuesError].  [dict(websocket.request.headers)] therefore
    builds a dict keyed by lower-cased names, and raises when a name occurs
    more than once. *)

Definition ascii_lower (c : ascii) : ascii :=
  let n := nat_of_ascii c in
  if Nat.leb 65 n && Nat.leb n 90 then ascii_of_nat (n + 32) else c.

Fixpoint str_lower (s : string) : string :=
  match s with
  | EmptyString => EmptyString
  | String c r => String (ascii_lower c) (str_lower r)
  end.

(** The value list a [Headers] object holds under the lower-cased name [k]. *)
Definition headers_values (hs : list (string * string)) (k : string) : list string :=
  map snd (filter (fun h => String.eqb (str_lower (fst h)) (str_lower k)) hs).

(** [dict(headers).get(k)]: [None] models the exception raised when some
    header name has several values; [Some None] is an absent key. *)
Definition headers_dict_get (hs : list (string * string)) (k : string)
  : option (option string) :=
  if existsb (fun h => match headers_values hs (fst h) with
                       | [_] => false | _ => true end) hs
  then None
  else match headers_values hs k with
       | [v] => Some (Some v)
       | _ => Some None
       end.

(** [device_id = headers.get("device-id")] *)
Definition request_device_id (hs : list (string * string)) : option (option string) :=
  headers_dict_get hs "device-id".

(** ** Gateway configuration ([__init__]) *)

Record gateway_policy : Type := {
  require_device_id : bool;            (* gateway.require_device_id *)
  allowed_devices : list string        (* set(gateway.allowed_devices) *)
}.

Definition device_in (d : option string) (allowed : list string) : bool :=
  match d with
  | Some s => existsb (String.eqb s) allowed
  | None => false
  end.

(** [not device_id] *)
Definition device_missing (d : option string) : bool :=
  match d with
  | Some s => String.eqb s ""
  | None => true
  end.

(** ** Outbound dicts *)

(** [_send_error(websocket, message, request_id)] payload. *)
Definition error_payload (msg : string) (request_id : json) : json :=
  JObj ([("type", JStr "error"); ("message", JStr msg)]
        ++ (if truthy request_id then [("request_id", request_id)] else [])).

Definition device_json (d : option string) : json :=
  match d with Some s => JStr s | None => JNull end.

(** [response_payload] of [_handle_message]. *)
Definition response_payload (d : option string) (text : string) (request_id : json) : json :=
  JObj ([("type", JStr "response"); ("device_id", device_json d);
         ("content", JStr text)]
        ++ (if truthy request_id then [("request_id", request_id)] else [])).

(** [_call_openai], after [create] returned [r]. *)
Definition call_openai_result (r : completion) : string :=
  match choices r with
  | choice :: _ =>
      match message choice with
      | Some m => match content m with Some s => s | None => "" end
      | None => ""
      end
  | [] => ""
  end.

(** A Python call: it returns a value or raises an exception (its [str]). *)
Inductive outcome (A : Type) : Type :=
| Returns (a : A)
| Raises (exc : string).
Arguments Returns {A} a.
Arguments Raises {A} exc.

(** [json.loads(message)]: a decoded value, [json.JSONDecodeError], or
    another exception it raises ([ValueError] for an integer literal of
    more than 4300 digits, [RecursionError] for deep nesting). *)
Inductive loads_outcome : Type :=
| Loaded (v : json)
| JSONDecodeError
| LoadsRaises (exc : string).

Section Gateway.

Variable json_loads : string -> loads_outcome.

(** The upstream [create] call; the [nat] is the index of the call on the
    connection, so that successive calls may see different outcomes. *)
Variable create : nat -> json -> create_outcome.

(** [_parse_payload]: only [json.JSONDecodeError] is caught. *)
Definition parse_payload (message : string) : outcome (option (list (string * json))) :=
  match json_loads message with
  | JSONDecodeError => Returns (Some [("text", JStr message)])
  | Loaded (JObj kv) => Returns (Some kv)
  | Loaded _ => Returns None
  | LoadsRaises exc => Raises exc
  end.

(** Lines 103-116 of [_handle_message] on a text frame: either the error
    message sent by [_send_error] (without request id), or the [messages]
    handed to the backend together with [request_id]; an exception of
    [_parse_payload] propagates. *)
Definition normalize_text (message : string) : outcome (string + (json * json)) :=
  match parse_payload message with
  | Raises exc => Raises exc
  | Returns None => Returns (inl msg_bad_format)
  | Returns (Some payload) =>
      let messages := py_get payload "messages" in
      let messages' :=
        if truthy messages then Some messages
        else
          let text := py_or (py_or (py_get payload "text") (py_get payload "content"))
                            (py_get payload "prompt") in
          if truthy text
          then Some (JArr [JObj [("role", JStr "user"); ("content", text)]])
          else None in
      match messages' with
      | None => Returns (inl msg_missing_fields)
      | Some ms => Returns (inr (ms, py_get payload "request_id"))
      end
  end.

(** [_handle_message]; [n] counts the backend calls made so far on the
    connection.  Exceptions of the backend call are caught ([except
    Exception]); an exception of [_parse_payload] escapes. *)
Definition handle_message (n : nat) (device_id : option string) (m : frame)
  : outcome (nat * list event) :=
  match m with
  | FBytes _ => Returns (n, [EvSend (error_payload msg_only_text JNull)])
  | FText s =>
      match normalize_text s with
      | Raises exc => Raises exc
      | Returns (inl e) => Returns (n, [EvSend (error_payload e JNull)])
      | Returns (inr (messages, request_id)) =>
          match create n messages with
          | CreateErr exc =>
              Returns (S n, [EvBackend messages;
                             EvSend (error_payload (msg_openai_failed_prefix ++ exc) request_id)])
          | CreateOk r =>
              Returns (S n, [EvBackend messages;
                             EvSend (response_payload device_id (call_openai_result r) request_id)])
          end
      end
  end.

(** [async for message in websocket: await self._handle_message(...)]; the
    loop ends when the client closes the transport ([ConnectionClosed] is
    caught); any other exception of [_handle_message] ends the handler,
    and no later frame is read. *)
Fixpoint receive_loop (n : nat) (device_id : option string) (frames : list frame)
  : list event :=
  match frames with
  | [] => []
  | m :: rest =>
      match handle_message n device_id m with
      | Returns (n', evs) => evs ++ receive_loop n' device_id rest
      | Raises _ => [EvHandlerError]
      end
  end.

(** [_handle_connection] *)
Definition handle_connection (pol : gateway_policy) (hs : list (string * string))
  (frames : list frame) : list event :=
  match request_device_id hs with
  | None => [EvHandlerError]
  | Some device_id =>
      if require_device_id pol && device_missing device_id then
        [EvSend (error_payload msg_missing_device_id JNull); EvClose]
      else if match allowed_devices pol with [] => false | _ => true end
              && negb (device_in device_id (allowed_devices pol)) then
        [EvSend (error_payload msg_unauthorized JNull); EvClose]
      else receive_loop 0 device_id frames
  end.

End Gateway.

(** ** A JSON decoder for concrete inputs

    [json_loads] is a parameter of the development above.  To evaluate the
    handler on concrete frames we use a decoder for a fragment of JSON:
    [null], [true], [false], integers, strings without backslash escapes,
    arrays and objects nested less than 64 deep.  On that fragment it
    follows [json.loads] from left to right: it skips the whitespace
    [json.loads] skips (space, tab, newline, carriage return), reports a
    syntax error ([JSONDecodeError]) for a missing or misplaced token, a
    trailing comma, a raw control character in a string, trailing data or
    the empty document, and reports the [ValueError] that [int()] raises
    for an integer literal of more than 4300 digits.  Fractions, exponents,
    escapes, [NaN], [Infinity] and deeper nesting are outside the fragment:
    the decoder answers [FragOutside] there and says nothing. *)

Inductive frag (A : Type) : Type :=
| FragOk (a : A)
| FragSyntax
| FragRaise (exc : string)
| FragOutside.
Arguments FragOk {A} a.
Arguments FragSyntax {A}.
Arguments FragRaise {A} exc.
Arguments FragOutside {A}.

Notation "'let!' x := e 'in' k" :=
  (match e with
   | FragOk x => k
   | FragSyntax => FragSyntax
   | FragRaise r => FragRaise r
   | FragOutside => FragOutside
   end) (at level 200, x name, e at level 100, k at level 200).

Definition code_is (c : ascii) (k : nat) : bool := Nat.eqb (nat_of_ascii c) k.

Definition is_ws (c : ascii) : bool :=
  code_is c 32 || code_is c 9 || code_is c 10 || code_is c 13.

Definition is_digit (c : ascii) : bool :=
  Nat.leb 48 (nat_of_ascii c) && Nat.leb (nat_of_ascii c) 57.

Fixpoint skip_ws (s : string) : string :=
  match s with
  | String c r => if is_ws c then skip_ws r else s
  | EmptyString => s
  end.

Fixpoint strip_prefix (p s : string) : option string :=
  match p, s with
  | EmptyString, _ => Some s
  | String a p', String b s' => if Ascii.eqb a b then strip_prefix p' s' else None
  | String _ _, EmptyString => None
  end.

Fixpoint lex_digits (s : string) : list nat * string :=
  match s with
  | String c r =>
      if is_digit c then
        let (ds, r') := lex_digits r in ((nat_of_ascii c - 48) :: ds, r')
      else ([], s)
  | EmptyString => ([], s)
  end.

Definition digits_value (ds : list nat) : Z :=
  fold_left (fun acc d => (10 * acc + Z.of_nat d)%Z) ds 0%Z.

Definition int_digits_limit_error : string :=
  "Exceeds the limit (4300 digits) for integer string conversion".

(** The body of a string literal up to its closing quote. *)
Fixpoint lex_string_body (s : string) : frag (string * string) :=
  match s with
  | EmptyString => FragSyntax
  | String c r =>
      if code_is c 34 then FragOk (EmptyString, r)
      else if code_is c 92 then FragOutside
      else if Nat.ltb (nat_of_ascii c) 32 then FragSyntax
      else let! p := lex_string_body r in
           let (body, r') := p in FragOk (String c body, r')
  end.

Definition starts_with_code (s : string) (k : nat) : bool :=
  match s with String c _ => code_is c k | EmptyString => false end.

(** An integer literal: an optional minus sign, then [0] or a non-zero
    digit followed by digits; the scanner stops after a leading [0]. *)
Definition parse_number (s : string) : frag (json * string) :=
  let '(neg, s1) := match s with
                    | String c r => if code_is c 45 then (true, r) else (false, s)
                    | EmptyString => (false, s)
                    end in
  if starts_with_code s1 73 then FragOutside            (* -Infinity *)
  else
    let '(ds, r) := match s1 with
                    | String c r => if code_is c 48 then ([0], r) else lex_digits s1
                    | EmptyString => ([], s1)
                    end in
    match ds with
    | [] => FragSyntax
    | _ =>
        if starts_with_code r 46 || starts_with_code r 101 || starts_with_code r 69
        then FragOutside
        else if Nat.ltb 4300 (length ds) then FragRaise int_digits_limit_error
        else FragOk (JInt (if neg then Z.opp (digits_value ds) else digits_value ds), r)
    end.

Definition max_depth : nat := 64.

Fixpoint parse_value (fuel depth : nat) (s : string) {struct fuel} : frag (json * string) :=
  match fuel with
  | O => FragOutside
  | S f =>
      match s with
      | EmptyString => FragSyntax
      | String c r =>
          if code_is c 123 then
            if Nat.leb max_depth depth then FragOutside else
            let r := skip_ws r in
            match r with
            | String c' r' => if code_is c' 125 then FragOk (JObj [], r')
                              else parse_members f (S depth) r []
            | EmptyString => FragSyntax
            end
          else if code_is c 91 then
            if Nat.leb max_depth depth then FragOutside else
            let r := skip_ws r in
            match r with
            | String c' r' => if code_is c' 93 then FragOk (JArr [], r')
                              else parse_elems f (S depth) r []
            | EmptyString => FragSyntax
            end
          else if code_is c 34 then
            let! p := lex_string_body r in
            let (body, r') := p in FragOk (JStr body, r')
          else if code_is c 110 then
            match strip_prefix "ull" r with Some r' => FragOk (JNull, r') | None => FragSyntax end
          else if code_is c 116 then
            match strip_prefix "rue" r with Some r' => FragOk (JBool true, r') | None => FragSyntax end
          else if code_is c 102 then
            match strip_prefix "alse" r with Some r' => FragOk (JBool false, r') | None => FragSyntax end
          else if code_is c 78 || code_is c 73 then FragOutside   (* NaN, Infinity *)
          else if code_is c 45 || is_digit c then parse_number s
          else FragSyntax
      end
  end
with parse_elems (fuel depth : nat) (s : string) (acc : list json) {struct fuel}
  : frag (json * string) :=
  match fuel with
  | O => FragOutside
  | S f =>
      let! p := parse_value f depth s in
      let (v, r) := p in
      match skip_ws r with
      | String c r' =>
          if code_is c 44 then parse_elems f depth (skip_ws r') (v :: acc)
          else if code_is c 93 then FragOk (JArr (rev (v :: acc)), r')
          else FragSyntax
      | EmptyString => FragSyntax
      end
  end
with parse_members (fuel depth : nat) (s : string) (acc : list (string * json)) {struct fuel}
  : frag (json * string) :=
  match fuel with
  | O => FragOutside
  | S f =>
      match s with
      | String c r =>
          if code_is c 34 then
            let! p := lex_string_body r in
            let (key, r1) := p in
            match skip_ws r1 with
            | String c1 r2 =>
                if code_is c1 58 then
                  let! q := parse_value f depth (skip_ws r2) in
                  let (v, r3) := q in
                  match skip_ws r3 with
                  | String c3 r4 =>
                      if code_is c3 44 then parse_members f depth (skip_ws r4) ((key, v) :: acc)
                      else if code_is c3 125 then FragOk (JObj (rev ((key, v) :: acc)), r4)
                      else FragSyntax
                  | EmptyString => FragSyntax
                  end
                else FragSyntax
            | EmptyString => FragSyntax
            end
          else FragSyntax
      | EmptyString => FragSyntax
      end
  end.

(** [json.loads] on the fragment; [None] outside it. *)
Definition json_loads_fragment (s : string) : option loads_outcome :=
  match parse_value (2 * String.length s + 2) 0 (skip_ws s) with
  | FragOk (v, r) => Some (if String.eqb (skip_ws r) "" then Loaded v else JSONDecodeError)
  | FragSyntax => Some JSONDecodeError
  | FragRaise e => Some (LoadsRaises e)
  | FragOutside => None
  end.

(** The decoder passed for [json_loads] in the concrete examples below,
    every one of which lies inside the fragment (where it is
    [json_loads_fragment]); outside the fragment it answers
    [JSONDecodeError], which no example relies on. *)
Definition fragment_loads (s : string) : loads_outcome :=
  match json_loads_fragment s with
  | Some o => o
  | None => JSONDecodeError
  end.

(** ** Concrete inputs *)

Definition dq : string := String (ascii_of_nat 34) EmptyString.
Definition jstr (s : string) : string := dq ++ s ++ dq.

(** [{"text":"hi","request_id":"42"}] *)
Definition frame_hi_42 : string :=
  "{" ++ jstr "text" ++ ":" ++ jstr "hi" ++ "," ++ jstr "request_id" ++ ":" ++ jstr "42" ++ "}".

(** [{"request_id":"42"}] *)
Definition frame_only_request_id : string :=
  "{" ++ jstr "request_id" ++ ":" ++ jstr "42" ++ "}".

(** [{"messages":"x","text":"hi"}] *)
Definition frame_messages_string : string :=
  "{" ++ jstr "messages" ++ ":" ++ jstr "x" ++ "," ++ jstr "text" ++ ":" ++ jstr "hi" ++ "}".

(** [{"messages":[{"foo":1}]}] *)
Definition frame_messages_shapeless : string :=
  "{" ++ jstr "messages" ++ ":[{" ++ jstr "foo" ++ ":1}]}".

(** [{"text":"","content":"c","prompt":"p"}] *)
Definition frame_content_field : string :=
  "{" ++ jstr "text" ++ ":" ++ jstr "" ++ "," ++ jstr "content" ++ ":" ++ jstr "c"
      ++ "," ++ jstr "prompt" ++ ":" ++ jstr "p" ++ "}".

Definition completion_of (s : string) : completion :=
  {| choices := [{| message := Some {| content := Some s |} |}] |}.


Definition backend_ok (_ : nat) (_ : json) : create_outcome :=
  CreateOk (completion_of "hello!").

(** ** Observations on outbound dicts and inbound frames *)

(** The value under key [k] of an outbound dict. *)
Definition json_field (j : json) (k : string) : option json :=
  match j with
  | JObj kv => option_map snd (find (fun p => String.eqb (fst p) k) kv)
  | _ => None
  end.

(** The [payload.get("request_id")] of a frame, when it decodes to a dict. *)
Definition inbound_request_id (json_loads : string -> loads_outcome) (m : frame)
  : option json :=
  match m with
  | FBytes _ => None
  | FText s =>
      match parse_payload json_loads s with
      | Returns (Some kv) => Some (py_get kv "request_id")
      | _ => None
      end
  end.

(** The events caused by handling one frame; an exception escaping
    [_handle_message] ends the handler. *)
Definition message_events (r : outcome (nat * list event)) : list event :=
  match r with
  | Returns (_, evs) => evs
  | Raises _ => [EvHandlerError]
  end.

Definition user_turn (text : json) : json :=
  JArr [JObj [("role", JStr "user"); ("content", text)]].

(** The spec's flat-message rule: the first non-empty of the given values. *)
Fixpoint first_nonempty (vs : list json) : option json :=
  match vs with
  | [] => None
  | v :: rest => if truthy v then Some v else first_nonempty rest
  end.

Definition is_nonempty_list (v : json) : bool :=
  match v with JArr (_ :: _) => true | _ => false end.

(** ** Log filtering ([SuppressInvalidHandshakeFilter]) *)

(** Python's [needle in hay] on [str]; on UTF-8 bytes, substring of code
    points and substring of bytes coincide. *)
Fixpoint str_contains (needle hay : string) : bool :=
  String.prefix needle hay ||
  match hay with
  | String _ r => str_contains needle r
  | EmptyString => false
  end.

Definition suppress_keywords : list string :=
  ["opening handshake failed";
   "did not receive a valid HTTP request";
   "connection closed while reading HTTP request";
   "line without CRLF"].

(** [SuppressInvalidHandshakeFilter.filter] on [record.getMessage()]. *)
Definition handshake_filter (msg : string) : bool :=
  negb (existsb (fun keyword => str_contains keyword msg) suppress_keywords).

(** ** Plain HTTP requests ([_http_response]) *)

Inductive http_outcome : Type :=
| HttpProceed                           (* return None: go on with the upgrade *)
| HttpRespond (status : Z) (body : string)
| HttpLookupError.                      (* MultipleValuesError from headers.get *)

Definition running_body : string :=
  "Gateway is running" ++ String (ascii_of_nat 10) EmptyString.

(** [request_headers.headers.get("connection", "").lower() == "upgrade"]:
    [Headers.get] returns the default for an absent name and raises for a
    name with several values. *)
Definition http_response (hs : list (string * string)) : http_outcome :=
  let value := match headers_values hs "connection" with
               | [] => Some ""
               | [v] => Some v
               | _ => None
               end in
  match value with
  | None => HttpLookupError
  | Some v => if String.eqb (str_lower v) "upgrade" then HttpProceed
              else HttpRespond 200 running_body
  end.

(** ** [check_config_file] (src/config/settings.py)

    The module-level flag [config_file_valid] is the state; [path_exists]
    is [os.path.exists] at the time of the call and [project_dir] is
    [get_project_dir()]. *)

Definition default_config_file : string := "config.yaml".

Definition custom_config_file (project_dir : string) : string :=
  project_dir ++ "data/." ++ default_config_file.

(** The new flag, and whether the call returned (false: FileNotFoundError). *)
Definition check_config_file (project_dir : string) (path_exists : string -> bool)
  (config_file_valid : bool) : bool * bool :=
  if config_file_valid then (true, true)
  else if path_exists (custom_config_file project_dir) then (true, true)
  else (false, false).

(** Successive calls, each seeing the file system given by its oracle. *)
Fixpoint run_config_checks (project_dir : string) (oracles : list (string -> bool))
  (config_file_valid : bool) : list bool :=
  match oracles with
  | [] => []
  | o :: os =>
      let (valid', returned) := check_config_file project_dir o config_file_valid in
      returned :: run_config_checks project_dir os valid'
  end.

(** ** Observations on traces *)








(** [{"text":"hi","request_id":""}] *)
Definition frame_empty_request_id : string :=
  "{" ++ jstr "text" ++ ":" ++ jstr "hi" ++ "," ++ jstr "request_id" ++ ":" ++ jstr "" ++ "}".



(** ** The authentication gate, in the words of the spec *)

(** Two header lists that differ only in the letter case of their names. *)
Definition same_header (h h' : string * string) : Prop :=
  str_lower (fst h) = str_lower (fst h') /\ snd h = snd h'.







(** The two shapes of an outbound frame. *)
Definition sent_frame_shape (d : option string) (j : json) : Prop :=
  json_field j "type" = Some (JStr "error") \/
  (json_field j "type" = Some (JStr "response") /\
   json_field j "device_id" = Some (device_json d)).

(** ** Lemmas on the embedding *)

Lemma json_field_error_payload msg rid r :
  json_field (error_payload msg rid) "request_id" = Some r -> r = rid.
Proof.
  unfold error_payload, json_field; destruct (truthy rid); simpl;
    intro H; inversion H; reflexivity.
Qed.

Lemma json_field_response_payload d text rid r :
  json_field (response_payload d text rid) "request_id" = Some r -> r = rid.
Proof.
  unfold response_payload, json_field; destruct (truthy rid); simpl;
    intro H; inversion H; reflexivity.
Qed.

Lemma normalize_text_inr loads s ms rid :
  normalize_text loads s = Returns (inr (ms, rid)) ->
  exists kv, parse_payload loads s = Returns (Some kv) /\ rid = py_get kv "request_id".
Proof.
  unfold normalize_text.
  destruct (parse_payload loads s) as [[kv|]|exc]; try discriminate.
  intro H; exists kv; split; [reflexivity|].
  destruct (truthy (py_get kv "messages"));
    [| destruct (truthy _)]; inversion H; reflexivity.
Qed.




(** ** Claims *)

(** C6: a successful [_call_openai] returns the content of the first
    choice's message, and the empty string when there is no choice, no
    message or a null content. *)
Theorem call_openai_first_content (r : completion) :
  (forall ch rest m s, choices r = ch :: rest -> message ch = Some m ->
                       content m = Some s -> call_openai_result r = s) /\
  ((choices r = [] \/
    (exists ch rest, choices r = ch :: rest /\ message ch = None) \/
    (exists ch rest m, choices r = ch :: rest /\ message ch = Some m /\ content m = None))
   -> call_openai_result r = "").
Proof.
  unfold call_openai_result; split.
  - intros ch rest m s -> -> ->; reflexivity.
  - intros [H|[[ch [rest [H1 H2]]]|[ch [rest [m [H1 [H2 H3]]]]]]];
      rewrite ?H, ?H1, ?H2, ?H3; reflexivity.
Qed.

Lemma call_openai_first_content_witness :
  call_openai_result (completion_of "hi") = "hi" /\
  call_openai_result {| choices := [] |} = "".
Proof.
  split.
  - apply (proj1 (call_openai_first_content (completion_of "hi"))
             {| message := Some {| content := Some "hi" |} |} []
             {| content := Some "hi" |}); reflexivity.
  - apply (proj2 (call_openai_first_content {| choices := [] |})).
    left; reflexivity.
Defined.

(** C8: a binary frame yields exactly one error frame with the
    only-text-messages message, without decoding and without a backend call
    (the call counter is unchanged), and the loop goes on with the next
    frames. *)
Theorem binary_frame_rejected loads create n d b rest :
  handle_message loads create n d (FBytes b)
    = Returns (n, [EvSend (JObj [("type", JStr "error"); ("message", JStr msg_only_text)])]) /\
  receive_loop loads create n d (FBytes b :: rest)
    = EvSend (error_payload msg_only_text JNull) :: receive_loop loads create n d rest.
Proof. split; reflexivity. Qed.

(** C10: when the [messages] field of a decoded dict is truthy, it is handed
    to the backend as it is, whatever its shape. *)
Theorem truthy_messages_passed_verbatim loads create n d s kv :
  parse_payload loads s = Returns (Some kv) ->
  truthy (py_get kv "messages") = true ->
  normalize_text loads s = Returns (inr (py_get kv "messages", py_get kv "request_id")) /\
  hd_error (message_events (handle_message loads create n d (FText s)))
    = Some (EvBackend (py_get kv "messages")).
Proof.
  intros Hp Hm.
  assert (Hn : normalize_text loads s
               = Returns (inr (py_get kv "messages", py_get kv "request_id")))
    by (unfold normalize_text; rewrite Hp, Hm; reflexivity).
  split; [exact Hn|].
  simpl; rewrite Hn; destruct (create n _); reflexivity.
Qed.

Lemma truthy_messages_passed_verbatim_witness :
  hd_error (message_events (handle_message fragment_loads backend_ok 0 (Some "dev")
                              (FText frame_messages_shapeless)))
    = Some (EvBackend (JArr [JObj [("foo", JInt 1)]])).
Proof.
  exact (proj2 (truthy_messages_passed_verbatim fragment_loads backend_ok 0 (Some "dev")
                  frame_messages_shapeless [("messages", JArr [JObj [("foo", JInt 1)]])]
                  eq_refl eq_refl)).
Defined.

(** C2: a [request_id] carried by any frame sent in reply to an inbound
    frame is exactly the [request_id] of that inbound frame's payload. *)
Theorem reply_request_id_echoed loads create n d m j r :
  In (EvSend j) (message_events (handle_message loads create n d m)) ->
  json_field j "request_id" = Some r ->
  inbound_request_id loads m = Some r.
Proof.
  destruct m as [b|s]; simpl.
  - intros [H|[]] Hf; inversion H; subst; discriminate.
  - destruct (normalize_text loads s) as [[e|[ms rid]]|exc] eqn:Hn; simpl.
    + intros [H|[]] Hf; inversion H; subst; discriminate.
    + destruct (normalize_text_inr _ _ _ _ Hn) as [kv [Hp ->]].
      rewrite Hp.
      destruct (create n ms); simpl;
        intros [H|[H|[]]] Hf; inversion H; subst.
      * apply json_field_response_payload in Hf; subst; reflexivity.
      * apply json_field_error_payload in Hf; subst; reflexivity.
    + intros [H|[]]; discriminate.
Qed.

Lemma reply_request_id_echoed_witness :
  inbound_request_id fragment_loads (FText frame_hi_42) = Some (JStr "42").
Proof.
  apply (reply_request_id_echoed fragment_loads backend_ok 0 (Some "dev")
           (FText frame_hi_42)
           (response_payload (Some "dev") "hello!" (JStr "42"))).
  - vm_compute; right; left; reflexivity.
  - vm_compute; reflexivity.
Defined.

(** C3 (failing input): the error for a decoded dict with no truthy
    [messages] and no truthy [text]/[content]/[prompt] is sent through
    [_send_error] without [request_id], so even a dict carrying a truthy
    [request_id] gets an uncorrelated error frame (while the backend-error
    path of the same handler passes [request_id]). *)
Theorem missing_content_error_uncorrelated loads create n d s kv :
  parse_payload loads s = Returns (Some kv) ->
  truthy (py_get kv "messages") = false ->
  truthy (py_or (py_or (py_get kv "text") (py_get kv "content")) (py_get kv "prompt")) = false ->
  handle_message loads create n d (FText s)
    = Returns (n, [EvSend (error_payload msg_missing_fields JNull)]) /\
  json_field (error_payload msg_missing_fields JNull) "request_id" = None.
Proof.
  intros Hp Hm Ht; split; [|reflexivity].
  simpl; unfold normalize_text; rewrite Hp, Hm, Ht; reflexivity.
Qed.

Lemma missing_content_error_uncorrelated_witness :
  inbound_request_id fragment_loads (FText frame_only_request_id) = Some (JStr "42") /\
  handle_message fragment_loads backend_ok 0 (Some "dev") (FText frame_only_request_id)
    = Returns (0, [EvSend (error_payload msg_missing_fields JNull)]).
Proof.
  split; [vm_compute; reflexivity|].
  exact (proj1 (missing_content_error_uncorrelated fragment_loads backend_ok 0 (Some "dev")
                  frame_only_request_id [("request_id", JStr "42")] eq_refl eq_refl eq_refl)).
Defined.




(** C5 as stated fails: a dict whose [messages] is the truthy string ["x"]
    has no non-empty messages list, yet ["x"] goes to the backend instead of
    the wrapped [text]. *)
Lemma flat_field_order_counterexample :
  ~ (forall s kv, parse_payload fragment_loads s = Returns (Some kv) ->
       is_nonempty_list (py_get kv "messages") = false ->
       normalize_text fragment_loads s
         = match first_nonempty [py_get kv "text"; py_get kv "content"; py_get kv "prompt"] with
           | Some t => Returns (inr (user_turn t, py_get kv "request_id"))
           | None => Returns (inl msg_missing_fields)
           end).
Proof.
  intro H.
  specialize (H frame_messages_string [("messages", JStr "x"); ("text", JStr "hi")]
                eq_refl eq_refl).
  vm_compute in H; discriminate.
Qed.

(** C5 (amended): for a decoded dict whose [messages] is falsy (absent,
    null, false, 0, empty string, empty list or empty object) the first
    truthy value of [text], [content], [prompt] is wrapped as the single
    user turn, and when none is truthy the frame gets the
    missing-messages-or-text error; a truthy [messages], a list or not (a
    string, a number, a dict, [true]), is used as the messages as it is. *)
Theorem flat_field_order loads s kv :
  parse_payload loads s = Returns (Some kv) ->
  (truthy (py_get kv "messages") = false ->
   normalize_text loads s
     = match first_nonempty [py_get kv "text"; py_get kv "content"; py_get kv "prompt"] with
       | Some t => Returns (inr (user_turn t, py_get kv "request_id"))
       | None => Returns (inl msg_missing_fields)
       end) /\
  (truthy (py_get kv "messages") = true ->
   normalize_text loads s = Returns (inr (py_get kv "messages", py_get kv "request_id"))).
Proof.
  intro Hp; split; intro Hm; unfold normalize_text; rewrite Hp, Hm; [simpl|reflexivity].
  unfold py_or.
  destruct (truthy (py_get kv "text")) eqn:H1; simpl; rewrite ?H1; [reflexivity|].
  destruct (truthy (py_get kv "content")) eqn:H2; simpl; rewrite ?H2; [reflexivity|].
  destruct (truthy (py_get kv "prompt")) eqn:H3; reflexivity.
Qed.

Lemma flat_field_order_witness :
  normalize_text fragment_loads frame_content_field
    = Returns (inr (user_turn (JStr "c"), JNull)) /\
  normalize_text fragment_loads frame_messages_string = Returns (inr (JStr "x", JNull)).
Proof.
  split.
  - exact (proj1 (flat_field_order fragment_loads frame_content_field
                    [("text", JStr ""); ("content", JStr "c"); ("prompt", JStr "p")] eq_refl)
                 eq_refl).
  - exact (proj2 (flat_field_order fragment_loads frame_messages_string
                    [("messages", JStr "x"); ("text", JStr "hi")] eq_refl)
                 eq_refl).
Defined.



(** ** Handshake lemmas *)

Lemma existsb_pointwise {A} (f g : A -> bool) l :
  (forall x, f x = g x) -> existsb f l = existsb g l.
Proof. intro H; induction l as [|x l IH]; simpl; [|rewrite H, IH]; reflexivity. Qed.

Lemma headers_values_lower hs k k' :
  str_lower k = str_lower k' -> headers_values hs k = headers_values hs k'.
Proof. unfold headers_values; intros ->; reflexivity. Qed.

Lemma headers_values_same hs hs' k :
  Forall2 same_header hs hs' -> headers_values hs k = headers_values hs' k.
Proof.
  unfold headers_values; induction 1 as [|[n v] [n' v'] hs hs' [Hn Hv] _ IH];
    simpl in *; [reflexivity|].
  rewrite Hn; destruct (String.eqb (str_lower n') (str_lower k)); simpl;
    rewrite IH; [subst|]; reflexivity.
Qed.

Lemma existsb_same_header (g : string -> bool) hs hs' :
  (forall k k', str_lower k = str_lower k' -> g k = g k') ->
  Forall2 same_header hs hs' ->
  existsb (fun h => g (fst h)) hs = existsb (fun h => g (fst h)) hs'.
Proof.
  intros Hg; induction 1 as [|h h' hs hs' [Hn _] _ IH]; simpl; [reflexivity|].
  rewrite (Hg _ _ Hn), IH; reflexivity.
Qed.



(** C9: the device id is read under a case-insensitive name: recasing the
    header names (keeping the values) changes neither the device id read
    nor anything [_handle_connection] does. *)
Theorem device_id_header_case_insensitive hs hs' :
  Forall2 same_header hs hs' ->
  request_device_id hs = request_device_id hs' /\
  forall loads create pol frames,
    handle_connection loads create pol hs frames
    = handle_connection loads create pol hs' frames.
Proof.
  intro Hs.
  assert (Hv : forall k, headers_values hs k = headers_values hs' k)
    by (intro k; apply headers_values_same; exact Hs).
  assert (Hd : request_device_id hs = request_device_id hs').
  { unfold request_device_id, headers_dict_get.
    assert (He : existsb (fun h => match headers_values hs (fst h) with
                                   | [_] => false | _ => true end) hs
                 = existsb (fun h => match headers_values hs' (fst h) with
                                     | [_] => false | _ => true end) hs').
    { transitivity (existsb (fun h => match headers_values hs' (fst h) with
                                      | [_] => false | _ => true end) hs).
      - apply existsb_pointwise; intro x; rewrite (Hv (fst x)); reflexivity.
      - apply (existsb_same_header
                 (fun k => match headers_values hs' k with [_] => false | _ => true end));
          [|exact Hs].
        intros k k' Hk; rewrite (headers_values_lower hs' k k' Hk); reflexivity. }
    rewrite He, (Hv "device-id"); reflexivity. }
  split; [exact Hd|].
  intros; unfold handle_connection; rewrite Hd; reflexivity.
Qed.

Lemma device_id_header_case_insensitive_witness :
  request_device_id [("DEVICE-ID", "dev1"); ("Host", "gw")]
    = request_device_id [("device-id", "dev1"); ("Host", "gw")] /\
  request_device_id [("device-id", "dev1"); ("Host", "gw")] = Some (Some "dev1").
Proof.
  split; [|vm_compute; reflexivity].
  apply (device_id_header_case_insensitive
           [("DEVICE-ID", "dev1"); ("Host", "gw")] [("device-id", "dev1"); ("Host", "gw")]).
  repeat constructor.
Defined.

(** ** The authentication gate *)






(** ** Further properties of the gateway *)

Lemma prefix_iff k m : String.prefix k m = true <-> exists post, m = k ++ post.
Proof.
  revert m; induction k as [|a k IH]; intros [|b m]; simpl.
  - split; [exists ""; reflexivity|reflexivity].
  - split; [exists (String b m); reflexivity|reflexivity].
  - split; [discriminate|intros [post H]; discriminate].
  - destruct (ascii_dec a b) as [->|Hne].
    + rewrite IH; split; intros [post H]; exists post.
      * rewrite H; reflexivity.
      * inversion H; reflexivity.
    + split; [discriminate|intros [post H]; inversion H; congruence].
Qed.

Lemma str_contains_iff k m :
  str_contains k m = true <-> exists pre post, m = pre ++ k ++ post.
Proof.
  assert (Hu : forall m', str_contains k m'
                         = String.prefix k m' ||
                           match m' with String _ r => str_contains k r | EmptyString => false end)
    by (intros [|c r]; reflexivity).
  induction m as [|c m IH]; rewrite Hu, orb_true_iff, prefix_iff.
  - split.
    + intros [[post H]|H]; [|discriminate].
      exists "", post; exact H.
    + intros [pre [post H]]; left; exists post.
      destruct pre; [exact H|discriminate].
  - rewrite IH; split.
    + intros [[post H]|[pre [post H]]].
      * exists "", post; exact H.
      * exists (String c pre), post; rewrite H; reflexivity.
    + intros [pre [post H]]; destruct pre as [|c' pre].
      * left; exists post; exact H.
      * right; exists pre, post; inversion H; reflexivity.
Qed.

(** X1: the handshake filter drops a log message exactly when one of the
    four keywords occurs anywhere inside it. *)
Theorem handshake_filter_drops_iff msg :
  handshake_filter msg = false <->
  exists keyword, In keyword suppress_keywords /\
                  exists pre post, msg = pre ++ keyword ++ post.
Proof.
  unfold handshake_filter; rewrite negb_false_iff, existsb_exists; split;
    intros [kw [Hin Hc]]; exists kw; split; try exact Hin;
    apply str_contains_iff; exact Hc.
Qed.

(** X2: [_http_response] on a request whose [Connection] header is absent
    answers 200 with the health-check body; with one [Connection] value it
    lets the upgrade go on when the value is ["upgrade"] in any letter case
    and answers 200 with the health-check body for any other value; with
    several [Connection] values [headers.get] raises.  So the upgrade goes on
    exactly when there is one [Connection] value equal to ["upgrade"] in any
    letter case. *)
Theorem http_response_upgrade_iff hs :
  (headers_values hs "connection" = [] -> http_response hs = HttpRespond 200 running_body) /\
  (forall v, headers_values hs "connection" = [v] ->
   (str_lower v = "upgrade" -> http_response hs = HttpProceed) /\
   (str_lower v <> "upgrade" -> http_response hs = HttpRespond 200 running_body)) /\
  (2 <= length (headers_values hs "connection") -> http_response hs = HttpLookupError) /\
  (http_response hs = HttpProceed <->
   exists v, headers_values hs "connection" = [v] /\ str_lower v = "upgrade").
Proof.
  unfold http_response.
  destruct (headers_values hs "connection") as [|v [|w l]].
  - split; [reflexivity|]; split; [intros v H; discriminate|]; split;
      [simpl; lia|].
    split; [discriminate|intros [v [H _]]; discriminate].
  - split; [discriminate|]; split; [|split; [simpl; lia|]].
    + intros v' H; inversion H; subst; split; intro E.
      * rewrite E; reflexivity.
      * destruct (String.eqb_spec (str_lower v') "upgrade"); [contradiction|reflexivity].
    + destruct (String.eqb_spec (str_lower v) "upgrade") as [E|E].
      * split; [intros _; exists v; split; [reflexivity|exact E]|reflexivity].
      * split; [discriminate|intros [v' [H H']]; inversion H; subst; contradiction].
  - split; [discriminate|]; split; [intros v' H; discriminate|]; split; [reflexivity|].
    split; [discriminate|intros [v' [H _]]; discriminate].
Qed.

Lemma http_response_upgrade_iff_witness :
  http_response [("Host", "gw")] = HttpRespond 200 running_body /\
  http_response [("Connection", "Upgrade")] = HttpProceed /\
  http_response [("Connection", "keep-alive, Upgrade")] = HttpRespond 200 running_body /\
  http_response [("Connection", "Upgrade"); ("connection", "close")] = HttpLookupError.
Proof.
  split; [exact (proj1 (http_response_upgrade_iff [("Host", "gw")]) eq_refl)|].
  split.
  { apply (proj1 (proj1 (proj2 (http_response_upgrade_iff [("Connection", "Upgrade")]))
                   "Upgrade" eq_refl)); reflexivity. }
  split.
  { apply (proj2 (proj1 (proj2 (http_response_upgrade_iff
                                  [("Connection", "keep-alive, Upgrade")]))
                   "keep-alive, Upgrade" eq_refl)); discriminate. }
  apply (proj1 (proj2 (proj2 (http_response_upgrade_iff
                                [("Connection", "Upgrade"); ("connection", "close")])))).
  simpl; lia.
Defined.

(** X3: once [check_config_file] has succeeded, every later call returns
    without looking at the file system; before that, a call succeeds exactly
    when [<project dir>data/.config.yaml] exists, and a failure leaves the
    flag unset. *)
Theorem config_check_sticky project_dir :
  (forall os, run_config_checks project_dir os true = repeat true (length os)) /\
  (forall o os,
     run_config_checks project_dir (o :: os) false
     = if o (project_dir ++ "data/.config.yaml")
       then true :: repeat true (length os)
       else false :: run_config_checks project_dir os false).
Proof.
  assert (Ht : forall os, run_config_checks project_dir os true = repeat true (length os))
    by (induction os as [|o os IH]; simpl; [|rewrite IH]; reflexivity).
  split; [exact Ht|].
  intros o os; simpl; unfold check_config_file, custom_config_file, default_config_file.
  destruct (o _); simpl; [rewrite Ht|]; reflexivity.
Qed.

(** X4: when any header name occurs more than once (in any letter case),
    [dict(websocket.request.headers)] raises and the handler fails before
    the authentication gate: no error frame is sent, whatever the policy. *)
Theorem duplicate_header_handler_error loads create pol hs frames h :
  In h hs -> 2 <= length (headers_values hs (fst h)) ->
  handle_connection loads create pol hs frames = [EvHandlerError].
Proof.
  intros Hin Hlen; unfold handle_connection, request_device_id, headers_dict_get.
  replace (existsb _ hs) with true; [reflexivity|].
  symmetry; apply existsb_exists; exists h; split; [exact Hin|].
  destruct (headers_values hs (fst h)) as [|a [|b l]]; simpl in *; [lia|lia|reflexivity].
Qed.

Lemma duplicate_header_handler_error_witness :
  handle_connection fragment_loads backend_ok
    {| require_device_id := false; allowed_devices := [] |}
    [("Device-Id", "a"); ("device-id", "b")] [FText "hello"] = [EvHandlerError].
Proof.
  apply (duplicate_header_handler_error _ _ _ _ _ ("Device-Id", "a")).
  - left; reflexivity.
  - vm_compute; lia.
Defined.






Lemma error_payload_shape d msg rid : sent_frame_shape d (error_payload msg rid).
Proof. left; unfold error_payload; destruct (truthy rid); reflexivity. Qed.

Lemma response_payload_shape d text rid : sent_frame_shape d (response_payload d text rid).
Proof. right; unfold response_payload; destruct (truthy rid); split; reflexivity. Qed.

(** X8: every frame the receive loop sends is an error frame or a response
    frame, and every response frame names the device id read at the
    handshake. *)
Theorem receive_loop_sent_frames loads create n d frames j :
  In (EvSend j) (receive_loop loads create n d frames) ->
  sent_frame_shape d j.
Proof.
  revert n; induction frames as [|m rest IH]; intro n; simpl; [tauto|].
  destruct (handle_message loads create n d m) as [[n' evs]|exc] eqn:Hm;
    [|intros [H|[]]; discriminate].
  rewrite in_app_iff; intros [Hin|Hin]; [|exact (IH n' Hin)].
  destruct m as [b|s]; simpl in Hm.
  - inversion Hm; subst; destruct Hin as [H|[]]; inversion H; apply error_payload_shape.
  - destruct (normalize_text loads s) as [[e|[ms rid]]|e]; [|destruct (create n ms)|];
      inversion Hm; subst; simpl in Hin;
      repeat (destruct Hin as [H|Hin]; [inversion H; subst|]); try contradiction;
      first [apply error_payload_shape | apply response_payload_shape].
Qed.

Lemma receive_loop_sent_frames_witness :
  sent_frame_shape (Some "dev") (response_payload (Some "dev") "hello!" JNull).
Proof.
  apply (receive_loop_sent_frames fragment_loads backend_ok 0 (Some "dev") [FText "hello"]).
  vm_compute; right; left; reflexivity.
Defined.

(** X9: a text frame that [json.loads] decodes to a value other than an
    object (a number, a quoted string, an array, ...) gets the
    invalid-format error and no backend call, unlike a text that raises
    [JSONDecodeError]. *)
Theorem non_object_json_rejected loads create n d s v :
  loads s = Loaded v -> (forall kv, v <> JObj kv) ->
  handle_message loads create n d (FText s)
    = Returns (n, [EvSend (error_payload msg_bad_format JNull)]).
Proof.
  intros Hl Hv; simpl; unfold normalize_text, parse_payload; rewrite Hl.
  destruct v; try reflexivity.
  exfalso; eapply Hv; reflexivity.
Qed.

Lemma non_object_json_rejected_witness :
  handle_message fragment_loads backend_ok 0 (Some "dev") (FText (jstr "hello"))
    = Returns (0, [EvSend (error_payload msg_bad_format JNull)]).
Proof.
  apply (non_object_json_rejected _ _ _ _ _ (JStr "hello")).
  - vm_compute; reflexivity.
  - intros kv H; discriminate.
Defined.

(** X10: when the [request_id] of a decoded dict is falsy (empty string, 0,
    false, null, empty list or object), no frame sent in reply carries a
    [request_id] at all. *)
Theorem falsy_request_id_dropped loads create n d s kv j :
  parse_payload loads s = Returns (Some kv) ->
  truthy (py_get kv "request_id") = false ->
  In (EvSend j) (message_events (handle_message loads create n d (FText s))) ->
  json_field j "request_id" = None.
Proof.
  intros Hp Hr; simpl.
  destruct (normalize_text loads s) as [[e|[ms rid]]|exc] eqn:Hn; simpl.
  - intros [H|[]]; inversion H; subst; reflexivity.
  - destruct (normalize_text_inr _ _ _ _ Hn) as [kv' [Hp' ->]].
    rewrite Hp in Hp'; inversion Hp'; subst kv'.
    destruct (create n ms); simpl; intros [H|[H|[]]]; inversion H; subst.
    + unfold response_payload, json_field; rewrite Hr; reflexivity.
    + unfold error_payload, json_field; rewrite Hr; reflexivity.
  - intros [H|[]]; discriminate.
Qed.

Lemma falsy_request_id_dropped_witness :
  json_field (response_payload (Some "dev") "hello!" (JStr "")) "request_id" = None.
Proof.
  apply (falsy_request_id_dropped fragment_loads backend_ok 0 (Some "dev")
           frame_empty_request_id [("text", JStr "hi"); ("request_id", JStr "")]).
  - vm_compute; reflexivity.
  - reflexivity.
  - vm_compute; right; left; reflexivity.
Defined.
